(** * Asian Paints strategy simulation: the engine and the turn loop

    A shallow embedding of [code.py] (a Streamlit script) and the properties
    of its simulation engine, its per-quarter state update and its scenario
    draw.

    Numbers are modelled as Python has them: [int] as [Z], [float] as the
    kernel's binary64 floats ([PrimFloat]), so every float operation below
    rounds exactly as the interpreter's does. *)

From Stdlib Require Import ZArith List String Bool Lia.
From Stdlib Require Import Floats.
Import ListNotations.

Set Warnings "-inexact-float".

Local Open Scope Z_scope.
Local Open Scope string_scope.

(** ** Python values *)

Module Py.

  (** [float(n)] for an [int] [n]: the nearest binary64 value (exact below
      2^53, which covers every integer the script converts). *)
Definition float_of_int (n : Z) : float :=
  SF2Prim (binary_normalize prec emax n 0 false).

  (** [a / b] on two [int]s (true division). *)
Definition int_truediv (a b : Z) : float :=
  (float_of_int a / float_of_int b)%float.

  (** The values stored in the history records. *)
Inductive value : Type :=
  | Int (n : Z)
  | Float (x : float)
  | Str (s : string).

  (** A [dict] literal with string keys, in insertion order. *)
Definition dict : Type := list (string * value).

  (** [d[k]]: [None] stands for [KeyError]. *)
Fixpoint getitem (d : dict) (k : string) : option value :=
  match d with
  | [] => None
  | (k', v) :: d' => if String.eqb k' k then Some v else getitem d' k
  end.

  (** [s.startswith(p)]. *)
Definition startswith (s p : string) : bool := String.prefix p s.

  (** The exceptions the script can raise. *)
Inductive exn : Type :=
  | KeyError (key : string)
  | TypeError (msg : string).

End Py.

(** ** Configuration and game constants *)

Definition MAX_PERIODS : Z := 8.
Definition STARTING_CASH : Z := 500.
Definition STARTING_SHARE : float := 59.0%float.
Definition BIRLA_SHARE : float := 5.0%float.
Definition DEMAND_BASE : Z := 1000.

(** ** Session state

    [st.session_state] once [init_game] has filled it.  [cash] starts as the
    [int] 500 and becomes a [float] with the first [cash += profit]; it is
    kept as a float throughout, which changes neither the sums nor the
    comparison [cash < 0]. *)

Record SessionState : Type := mkSession {
  period : Z;
  cash : float;
  market_share : float;
  birla_share : float;
  history : list Py.dict;
  game_over : bool;
  last_feedback : string
}.

(** ** The simulation engine: [calculate_results] *)

(** 1. Base costs. *)
Definition logistics_cost (delivery_freq : string) : Z :=
  if delivery_freq =? "4x Daily (Responsive)" then 80 else 30.

Definition inventory_cost (inventory_policy : string) : Z :=
  if inventory_policy =? "High Buffer (Responsive)" then 50 else 20.

Definition incentive_cost (dealer_incentive : string) : Z :=
  if dealer_incentive =? "Match Birla (High)" then 60 else 20.

Definition total_opex (delivery_freq inventory_policy dealer_incentive : string) : Z :=
  logistics_cost delivery_freq + inventory_cost inventory_policy
  + incentive_cost dealer_incentive.

(** 2. Service level: the three [service_score += ...] branches. *)
Definition base_service_score
    (delivery_freq inventory_policy dealer_incentive : string) : Z :=
  let service_score := 0 in
  let service_score :=
    if delivery_freq =? "4x Daily (Responsive)"
    then service_score + 40 else service_score + 10 in
  let service_score :=
    if inventory_policy =? "High Buffer (Responsive)"
    then service_score + 40 else service_score + 10 in
  let service_score :=
    if dealer_incentive =? "Match Birla (High)"
    then service_score + 20 else service_score + 5 in
  service_score.

(** 3. Volatility: applied to the running score when demand is not Stable. *)
Definition apply_volatility
    (service_score : Z) (delivery_freq inventory_policy demand_type : string) : Z :=
  if negb (demand_type =? "Stable") then
    let service_score :=
      if inventory_policy =? "Lean (Efficient)"
      then service_score - 30 else service_score in
    let service_score :=
      if delivery_freq =? "1x Daily (Efficient)"
      then service_score - 20 else service_score in
    service_score
  else service_score.

(** The score just before [max(0, min(100, service_score))]. *)
Definition unclamped_service_score
    (delivery_freq inventory_policy dealer_incentive demand_type : string) : Z :=
  apply_volatility
    (base_service_score delivery_freq inventory_policy dealer_incentive)
    delivery_freq inventory_policy demand_type.

Definition clamp_score (service_score : Z) : Z :=
  Z.max 0 (Z.min 100 service_score).

(** The value of the local [service_score] after the clamp. *)
Definition service_score
    (delivery_freq inventory_policy dealer_incentive demand_type : string) : Z :=
  clamp_score
    (unclamped_service_score delivery_freq inventory_policy dealer_incentive
       demand_type).

(** 4. Market share impact: [(share_change, feedback)]. *)
Definition feedback_happy : string :=
  "Dealers are happy. Availability is high.".
Definition feedback_grumbling : string :=
  "Dealers are grumbling. Some are stocking Birla Opus alongside yours.".
Definition feedback_disaster : string :=
  "DISASTER! Stockouts during peak demand. Dealers are furious and aggressively pushing Birla Opus.".

Definition share_impact (service_score : Z) : float * string :=
  if service_score >=? 85 then (0.5%float, feedback_happy)
  else if service_score >=? 60 then ((-1.5)%float, feedback_grumbling)
  else ((-5.0)%float, feedback_disaster).

(** 5. Financials. *)
Definition demand_multiplier (demand_type : string) : float :=
  if demand_type =? "Festival Season" then 1.5%float else 1.0%float.

Definition actual_revenue
    (st : SessionState) (demand_type : string) (service_score : Z) : float :=
  ((Py.float_of_int DEMAND_BASE * demand_multiplier demand_type)
   * (market_share st / Py.float_of_int 100)
   * Py.int_truediv service_score 100
   * 0.5)%float.

(** [calculate_results]: the share is not a parameter, the function reads
    [st.session_state['market_share']]; the session is passed explicitly.
    Returns [(net_profit, share_change, feedback, total_opex, actual_revenue)]. *)
Definition calculate_results
    (st : SessionState)
    (delivery_freq inventory_policy dealer_incentive demand_type : string)
  : float * float * string * Z * float :=
  let total_opex := total_opex delivery_freq inventory_policy dealer_incentive in
  let service_score :=
    service_score delivery_freq inventory_policy dealer_incentive demand_type in
  let '(share_change, feedback) := share_impact service_score in
  let actual_revenue := actual_revenue st demand_type service_score in
  let net_profit := (actual_revenue - Py.float_of_int total_opex)%float in
  (net_profit, share_change, feedback, total_opex, actual_revenue).

(** ** Initialization *)

Definition welcome_feedback : string :=
  "Welcome, Vikram. Birla Opus has just launched. Your dealers are anxious. Make your Q1 decisions.".

(** [init_game]: [None] is the empty [st.session_state] (no ['period'] key
    yet); a filled one is left as it is. *)
Definition init_game (session_state : option SessionState) : SessionState :=
  match session_state with
  | Some st => st
  | None =>
      {| period := 1;
         cash := Py.float_of_int STARTING_CASH;
         market_share := STARTING_SHARE;
         birla_share := BIRLA_SHARE;
         history := [];
         game_over := false;
         last_feedback := welcome_feedback |}
  end.

(** [reset_game]: [st.session_state.clear()] and then [init_game()]. *)
Definition reset_game (st : SessionState) : SessionState :=
  init_game None.

(** ** The input form

    Each [st.radio] returns one of its two options. *)

Inductive DeliveryFrequency : Type := Responsive | Efficient.
Inductive InventoryPolicy : Type := HighBuffer | Lean.
Inductive DealerIncentive : Type := MatchBirla | Standard.

Definition delivery_option (d : DeliveryFrequency) : string :=
  match d with
  | Responsive => "4x Daily (Responsive)"
  | Efficient => "1x Daily (Efficient)"
  end.

Definition inventory_option (i : InventoryPolicy) : string :=
  match i with
  | HighBuffer => "High Buffer (Responsive)"
  | Lean => "Lean (Efficient)"
  end.

Definition incentive_option (c : DealerIncentive) : string :=
  match c with
  | MatchBirla => "Match Birla (High)"
  | Standard => "Standard (Low)"
  end.

(** What the user did to trigger this run of the script. *)
Inductive event : Type :=
  | NoEvent
  | RestartSimulation
  | RunQuarter (delivery : DeliveryFrequency) (inventory : InventoryPolicy)
               (incentive : DealerIncentive).

(** How a run of the script ends. *)
Inductive outcome : Type :=
  | Completed                 (* ran to its last line *)
  | Rerun                     (* [st.rerun()] *)
  | Stopped                   (* [st.stop()] *)
  | Raised (e : Py.exn).      (* an uncaught exception *)

Definition raised (o : outcome) : bool :=
  match o with Raised _ => true | _ => false end.

Definition stopped (o : outcome) : bool :=
  match o with Stopped => true | _ => false end.

(** The three scenarios the generator can name. *)
Definition scenarios : list string := ["Stable"; "Volatile"; "Festival Season"].

(** The three values [share_change] is assigned in [calculate_results]. *)
Definition share_changes : list float := [0.5; -1.5; -5.0]%float.

(** The pairs (own share, Birla's share) that [n] processed quarters can
    lead to from the starting shares: a quarter is only played from an own
    share that is not below 40 (the game is over otherwise), and moves the
    two shares by one of the three share changes. *)
Fixpoint shares_after (n : nat) : list (float * float) :=
  match n with
  | O => [(STARTING_SHARE, BIRLA_SHARE)]
  | S n' =>
      flat_map
        (fun '(own, birla) =>
           if (own <? 40)%float then []
           else map (fun share_change =>
                       ((own + share_change)%float, (birla - share_change)%float))
                    share_changes)
        (shares_after n')
  end.

(** Whether a share change applied to a pair of shares is exact in floats:
    taking the old own share back off the new one gives the share change,
    for Birla its opposite, and the two shares keep their sum ([=?] is
    Python's [==]). *)
Definition exact_transfer (p : float * float) (share_change : float) : bool :=
  let '(own, birla) := p in
  (((own + share_change) - own =? share_change)
   && ((birla - share_change) - birla =? - share_change)
   && ((own + share_change) + (birla - share_change) =? own + birla))%float.

(** Where a run stands after [n] quarters. *)
Definition on_track (st : SessionState) : Prop :=
  exists n : nat,
    (n <= 8)%nat /\
    period st = Z.of_nat n + 1 /\
    In (market_share st, birla_share st) (shares_after n) /\
    (game_over st = false -> (n < 8)%nat /\ (market_share st <? 40)%float = false).

(** No record of the history has the key ["market_share_end"] (the
    [if submitted:] block writes ["Market_Share_End"]). *)
Definition no_lowercase_key (st : SessionState) : Prop :=
  Forall (fun record => Py.getitem record "market_share_end" = None) (history st).

(** What the form can submit, and with the scenario what the engine can be
    called with. *)
Definition form_choices : list (string * string * string) :=
  list_prod
    (list_prod (map delivery_option [Responsive; Efficient])
               (map inventory_option [HighBuffer; Lean]))
    (map incentive_option [MatchBirla; Standard]).

Definition engine_inputs : list (string * string * string * string) :=
  list_prod form_choices scenarios.

(** A session that holds the given own share (the engine reads no other
    field). *)
Definition session_with_share (share : float) : SessionState :=
  {| period := 1;
     cash := 0%float;
     market_share := share;
     birla_share := 0%float;
     history := [];
     game_over := false;
     last_feedback := "" |}.

(** Whether, at the given own share, every call the script can make of the
    engine returns a profit between -110 and 278.75, a revenue that is not
    negative, and a profit of at least 10 when delivery is responsive and
    the buffer high. *)
Definition quarter_figures_ok (share : float) : bool :=
  forallb
    (fun '(delivery, inventory, incentive, scenario) =>
       let '(net_profit, _, _, _, revenue) :=
         calculate_results (session_with_share share) delivery inventory
           incentive scenario in
       ((-110 <=? net_profit) && (net_profit <=? 278.75) && (0 <=? revenue)
        && (negb ((delivery =? "4x Daily (Responsive)")%string
                  && (inventory =? "High Buffer (Responsive)")%string)
            || (10 <=? net_profit)))%float)
    engine_inputs.

(** Whether a pair of shares adds up to 64 with the own share at most 63
    and Birla's between 1 and 29. *)
Definition shares_in_range (p : float * float) : bool :=
  let '(own, birla) := p in
  ((own + birla =? 64) && (own <=? 63) && (1 <=? birla) && (birla <=? 29))%float.

(** The figures of a session: cash, own share, Birla's share. *)
Definition figures (st : SessionState) : float * float * float :=
  (cash st, market_share st, birla_share st).

(** The test that ends the game, on the figures reached after [n]
    quarters (the period is then [n + 1]). *)
Definition over_at (n : nat) (state : float * float * float) : bool :=
  let '(cash, own, _) := state in
  (Z.of_nat n + 1 >? MAX_PERIODS) || (cash <? 0)%float || (own <? 40)%float.

(** The figures one more quarter can lead to when delivery and inventory
    are fixed and the commissions and the scenario are one of [options]. *)
Definition strategy_step (delivery inventory : string)
    (options : list (string * string)) (state : float * float * float)
  : list (float * float * float) :=
  let '(cash, own, birla) := state in
  map (fun '(incentive, scenario) =>
         let '(net_profit, share_change, _, _, _) :=
           calculate_results (session_with_share own) delivery inventory
             incentive scenario in
         ((cash + net_profit)%float, (own + share_change)%float,
          (birla - share_change)%float))
      options.

Fixpoint strategy_outcomes (delivery inventory : string)
    (options : list (string * string)) (n : nat)
  : list (float * float * float) :=
  match n with
  | O => [figures (init_game None)]
  | S n' =>
      flat_map (strategy_step delivery inventory options)
               (strategy_outcomes delivery inventory options n')
  end.

(** Whether the game is still open on all the figures enumerated for fewer
    than [n] quarters, and over on all those enumerated for [n] quarters,
    where they also pass the test [final]. *)
Definition strategy_check (delivery inventory : string)
    (options : list (string * string)) (n : nat)
    (final : float * float * float -> bool) : bool :=
  forallb
    (fun k =>
       forallb (fun state => negb (over_at k state))
               (strategy_outcomes delivery inventory options k))
    (seq 0 n)
  && forallb (fun state => over_at n state && final state)
             (strategy_outcomes delivery inventory options n).

(** Where eight responsive quarters end, and where four efficient ones do. *)
Definition responsive_final (state : float * float * float) : bool :=
  let '(cash, own, birla) := state in
  ((own =? 63) && (birla =? 1) && (1365.5 <=? cash) && (cash <=? 2625))%float.

Definition efficient_final (state : float * float * float) : bool :=
  let '(cash, own, birla) := state in
  ((own =? 39) && (birla =? 25) && (60 <=? cash) && (cash <=? 482.25))%float.

(** The commissions and scenarios that make a difference when delivery is
    responsive and the buffer high (a volatile market then gives the
    figures of a stable one), and all of them. *)
Definition responsive_options : list (string * string) :=
  list_prod (map incentive_option [MatchBirla; Standard])
            ["Stable"; "Festival Season"].

Definition all_options : list (string * string) :=
  list_prod (map incentive_option [MatchBirla; Standard]) scenarios.

(** The keys of the record that the [if submitted:] block appends. *)
Definition record_keys : list string :=
  ["Quarter"; "Scenario"; "Strategy"; "Profit"; "Market_Share_End"].

Section Script.

  (** NumPy's global generator and the builtin [round] are not code of this
      repository: [np.random.seed(n)] replaces the generator's state (the
      seeds of a run, [period * 99] for periods 1 to 8, are in the range it
      accepts), [np.random.random()] draws a float and advances it. *)
Variable RandomState : Type.
Variable np_random_seed : Z -> RandomState.
Variable np_random_random : RandomState -> float * RandomState.
Variable round : float -> Z -> float.

  (** *** Scenario generator

      Reseeds the global generator from [st.session_state['period']] and
      draws once; returns [(scenario, context)] and the generator's new
      state. *)
Definition scenario_generator (rng : RandomState) (period : Z)
  : string * string * RandomState :=
  let rng := np_random_seed (period * 99) in
  let '(scenario_roll, rng) := np_random_random rng in
  if (scenario_roll <? 0.3)%float then
    ("Stable", "Demand is flat. A quiet quarter.", rng)
  else if (scenario_roll <? 0.7)%float then
    ("Volatile",
     "Competitor Price War! Birla is undercutting prices aggressively.", rng)
  else
    ("Festival Season",
     "Diwali Peak! Demand is skyrocketing and highly unpredictable.", rng).

  (** *** The [if submitted:] block *)
Definition submitted
    (st : SessionState) (scenario delivery inventory incentive : string)
  : SessionState :=
  let '(profit, share_change, feedback, opex, rev) :=
    calculate_results st delivery inventory incentive scenario in
  let cash' := (cash st + profit)%float in
  let market_share' := (market_share st + share_change)%float in
  let birla_share' := (birla_share st - share_change)%float in
  let history' :=
    (history st ++
     [[("Quarter", Py.Int (period st));
       ("Scenario", Py.Str scenario);
       ("Strategy",
        Py.Str (if Py.startswith delivery "4x" then "Responsive" else "Efficient"));
       ("Profit", Py.Float (round profit 2));
       ("Market_Share_End", Py.Float (round market_share' 2))]])%list in
  let period' := period st + 1 in
  let game_over' :=
    if (period' >? MAX_PERIODS) || (cash' <? 0)%float || (market_share' <? 40)%float
    then true else game_over st in
  {| period := period';
     cash := cash';
     market_share := market_share';
     birla_share := birla_share';
     history := history';
     game_over := game_over';
     last_feedback := feedback |}.

  (** *** Sidebar: the [share_delta] shown next to the market share *)
Definition share_delta (st : SessionState) : Py.exn + float :=
  match history st with
  | [] => inr 0%float
  | _ :: _ =>
      match Py.getitem (last (history st) []) "market_share_end" with
      | Some (Py.Float x) => inr (market_share st - x)%float
      | Some (Py.Int n) => inr (market_share st - Py.float_of_int n)%float
      | Some (Py.Str _) => inl (Py.TypeError "unsupported operand type(s) for -")
      | None => inl (Py.KeyError "market_share_end")
      end
  end.

  (** *** From the game-over screen to the end of the [if submitted:] block *)
Definition play (st : SessionState) (rng : RandomState) (ev : event)
  : SessionState * RandomState * outcome :=
  if game_over st then (st, rng, Stopped)
  else
    let '(scenario, context, rng) := scenario_generator rng (period st) in
    match ev with
    | RunQuarter delivery inventory incentive =>
        (submitted st scenario (delivery_option delivery)
           (inventory_option inventory) (incentive_option incentive),
         rng, Rerun)
    | _ =>
        (* dashboard: reads [last_round['Profit']] when there is a history *)
        match history st with
        | [] => (st, rng, Completed)
        | _ :: _ =>
            match Py.getitem (last (history st) []) "Profit" with
            | Some _ => (st, rng, Completed)
            | None => (st, rng, Raised (Py.KeyError "Profit"))
            end
        end
    end.

  (** *** One run of the whole script *)
Definition script (session_state : option SessionState) (rng : RandomState)
    (ev : event) : SessionState * RandomState * outcome :=
  let st := init_game session_state in
  match share_delta st with
  | inl e => (st, rng, Raised e)
  | inr _ =>
      match ev with
      | RestartSimulation => (reset_game st, rng, Rerun)
      | _ => play st rng ev
      end
  end.

  (** *** Runs

      The states a run passes through when quarters are submitted only
      while the game is not over, under any scenario and any choices. *)
Inductive reachable : SessionState -> Prop :=
  | reachable_start : reachable (init_game None)
  | reachable_turn st scenario delivery inventory incentive :
      reachable st ->
      game_over st = false ->
      reachable (submitted st scenario delivery inventory incentive).

  (** *** A browser session

      The script runs once per event, each run on the session state and
      the generator that the run before it left. *)
Fixpoint script_runs (session_state : option SessionState) (rng : RandomState)
    (evs : list event) : option SessionState * RandomState :=
  match evs with
  | [] => (session_state, rng)
  | ev :: evs' =>
      let '(st, rng', _) := script session_state rng ev in
      script_runs (Some st) rng' evs'
  end.

  (** *** Quarters in a row

      The [if submitted:] block applied to one form submission after the
      other, each under the scenario shown for it; once the game is over
      no further submission is processed. *)
Fixpoint quarters (st : SessionState)
    (turns : list (string * DeliveryFrequency * InventoryPolicy * DealerIncentive))
  : SessionState :=
  match turns with
  | [] => st
  | (scenario, delivery, inventory, incentive) :: turns' =>
      if game_over st then st
      else
        quarters
          (submitted st scenario (delivery_option delivery)
             (inventory_option inventory) (incentive_option incentive))
          turns'
  end.

  (** The session states before any quarter and after the first one: no
      session yet, the opening state, or the opening state with one form
      submitted under one of the three scenarios. *)
Definition opening_or_first_quarter (session_state : option SessionState) : Prop :=
  session_state = None \/
  session_state = Some (init_game None) \/
  exists scenario delivery inventory incentive,
    In scenario scenarios /\
    session_state
    = Some (submitted (init_game None) scenario (delivery_option delivery)
              (inventory_option inventory) (incentive_option incentive)).

End Script.

(** ** A trivial instance of the external functions

    Used only to evaluate the definitions at concrete inputs. *)

Module Demo.

Definition RandomState : Type := Z.
Definition np_random_seed (n : Z) : RandomState := n.
Definition np_random_random (rng : RandomState) : float * RandomState :=
  (0.5%float, rng + 1).
Definition round (x : float) (ndigits : Z) : float := x.

Definition submitted := submitted round.
Definition play := play RandomState np_random_seed np_random_random round.
Definition script := script RandomState np_random_seed np_random_random round.

  (** The opening state, and the state after the first quarter played all
      efficient in a volatile market. *)
Definition st0 : SessionState := init_game None.
Definition st1 : SessionState :=
  submitted st0 "Volatile" "1x Daily (Efficient)" "Lean (Efficient)" "Standard (Low)".

  (** Four such quarters in a row end the game: the share is down to 39. *)
Definition st_over : SessionState :=
  let turn st :=
    submitted st "Volatile" "1x Daily (Efficient)" "Lean (Efficient)" "Standard (Low)" in
  turn (turn (turn st1)).

  (** A session that shares nothing with [st0] but the market share. *)
Definition st_alt : SessionState :=
  {| period := 7;
     cash := (-12.5)%float;
     market_share := STARTING_SHARE;
     birla_share := 30%float;
     history := [[("Quarter", Py.Int 6)]];
     game_over := true;
     last_feedback := feedback_grumbling |}.

End Demo.

(** * Properties *)

(** ** The engine *)

Lemma float_of_int_1000 : Py.float_of_int DEMAND_BASE = 1000%float.
Proof. reflexivity. Qed.

Lemma float_of_int_100 : Py.float_of_int 100 = 100%float.
Proof. reflexivity. Qed.

Lemma clamp_score_range (x : Z) : 0 <= clamp_score x <= 100.
Proof. unfold clamp_score. lia. Qed.

Lemma base_service_score_cases (delivery inventory incentive : string) :
  In (base_service_score delivery inventory incentive)
     [100; 85; 70; 55; 40; 25].
Proof.
  unfold base_service_score.
  destruct (delivery =? _), (inventory =? _), (incentive =? _); simpl; tauto.
Qed.

Lemma share_impact_cases (score : Z) :
  (85 <= score -> share_impact score = (0.5%float, feedback_happy)) /\
  (60 <= score < 85 -> share_impact score = ((-1.5)%float, feedback_grumbling)) /\
  (score < 60 -> share_impact score = ((-5.0)%float, feedback_disaster)).
Proof.
  unfold share_impact.
  destruct (Z.geb_spec score 85), (Z.geb_spec score 60); repeat split; intros;
    try reflexivity; lia.
Qed.

Lemma share_impact_in (score : Z) : In (fst (share_impact score)) share_changes.
Proof.
  unfold share_impact, share_changes.
  destruct (score >=? 85); [simpl; tauto|].
  destruct (score >=? 60); simpl; tauto.
Qed.

(** C1. The share change returned by [calculate_results] is one of 0.5, -1.5
    and -5.0, chosen by the clamped service score alone: at 85 or more it is
    0.5 with the "Dealers are happy" feedback (Excellent), from 60 to 84 it
    is -1.5 with the "Dealers are grumbling" feedback (Warning), below 60 it
    is -5.0 with the "DISASTER!" feedback (Crisis). *)
Theorem C1_share_change_by_threshold :
  forall (st : SessionState) (delivery inventory incentive demand_type : string),
    let '(_, share_change, feedback, _, _) :=
      calculate_results st delivery inventory incentive demand_type in
    let score := service_score delivery inventory incentive demand_type in
    In share_change share_changes /\
    (85 <= score -> share_change = 0.5%float /\ feedback = feedback_happy) /\
    (60 <= score < 85 ->
       share_change = (-1.5)%float /\ feedback = feedback_grumbling) /\
    (score < 60 -> share_change = (-5.0)%float /\ feedback = feedback_disaster).
Proof.
  intros st delivery inventory incentive demand_type.
  unfold calculate_results.
  pose proof (share_impact_cases
                (service_score delivery inventory incentive demand_type))
    as (Hhi & Hmid & Hlo).
  pose proof (share_impact_in
                (service_score delivery inventory incentive demand_type)) as Hin.
  destruct (share_impact _) as [share_change feedback]; simpl in *.
  split; [exact Hin|].
  split; [intros Hs; specialize (Hhi Hs); split; congruence|].
  split; [intros Hs; specialize (Hmid Hs); split; congruence|].
  intros Hs; specialize (Hlo Hs); split; congruence.
Qed.

(** C4. Whatever the three choices and the scenario, the service score that
    [calculate_results] works with after its clamp lies in [0, 100]. *)
Theorem C4_service_score_range :
  forall (delivery inventory incentive demand_type : string),
    0 <= service_score delivery inventory incentive demand_type <= 100.
Proof. intros. apply clamp_score_range. Qed.

(** The two worked examples: all responsive in a stable market, and all
    efficient in the festival season, both at the starting share. *)
Example calculate_results_all_responsive_stable :
  calculate_results Demo.st0 "4x Daily (Responsive)" "High Buffer (Responsive)"
    "Match Birla (High)" "Stable"
  = (105%float, 0.5%float, feedback_happy, 190, 295%float).
Proof. reflexivity. Qed.

Example calculate_results_all_efficient_festival :
  calculate_results Demo.st0 "1x Daily (Efficient)" "Lean (Efficient)"
    "Standard (Low)" "Festival Season"
  = ((-70)%float, (-5.0)%float, feedback_disaster, 70, 0%float).
Proof. reflexivity. Qed.

(** C2. The revenue returned by [calculate_results] is
    1000 * m * (share/100) * (score/100) * 0.5 with m = 1.5 in the festival
    season and 1.0 otherwise, the share being the one the session holds when
    the quarter is submitted (the turn adds its share change only afterwards),
    and the profit, which the turn adds to the cash, is revenue minus opex. *)
Theorem C2_revenue_and_profit :
  forall (round : float -> Z -> float) (st : SessionState)
         (delivery inventory incentive demand_type : string),
    let m := if demand_type =? "Festival Season" then 1.5%float else 1.0%float in
    let score := service_score delivery inventory incentive demand_type in
    let revenue :=
      (1000 * m * (market_share st / 100) * (Py.float_of_int score / 100) * 0.5)%float in
    let '(net_profit, share_change, _, opex, actual_revenue) :=
      calculate_results st delivery inventory incentive demand_type in
    let st' := submitted round st demand_type delivery inventory incentive in
    actual_revenue = revenue /\
    opex = total_opex delivery inventory incentive /\
    net_profit = (revenue - Py.float_of_int opex)%float /\
    cash st' = (cash st + (revenue - Py.float_of_int opex))%float /\
    market_share st' = (market_share st + share_change)%float.
Proof.
  intros round st delivery inventory incentive demand_type.
  unfold submitted, calculate_results.
  destruct (share_impact _) as [share_change feedback]; simpl.
  repeat split; reflexivity.
Qed.

(** C5, as the code has it.  With lean inventory and efficient delivery, in
    any market that is not stable, the score before the clamp is exactly 50
    lower than the score of the same choices in a stable market; the score
    after the clamp is 0 (the stable score is 40 or 25, so the clamp cuts
    the drop to 40 or 25). *)
Theorem C5_volatility_penalty_before_clamp :
  forall (incentive demand_type : string),
    demand_type <> "Stable" ->
    let stable :=
      service_score "1x Daily (Efficient)" "Lean (Efficient)" incentive "Stable" in
    unclamped_service_score "1x Daily (Efficient)" "Lean (Efficient)" incentive
      demand_type = stable - 50 /\
    service_score "1x Daily (Efficient)" "Lean (Efficient)" incentive demand_type
      = 0 /\
    (stable = 40 \/ stable = 25).
Proof.
  intros incentive demand_type Hne.
  apply String.eqb_neq in Hne.
  unfold service_score, unclamped_service_score, apply_volatility,
    base_service_score, clamp_score.
  rewrite Hne. simpl.
  destruct (incentive =? _); simpl; lia.
Qed.

Lemma C5_volatility_penalty_before_clamp_witness :
  "Volatile" <> "Stable" /\
  unclamped_service_score "1x Daily (Efficient)" "Lean (Efficient)"
    "Match Birla (High)" "Volatile" = 40 - 50 /\
  service_score "1x Daily (Efficient)" "Lean (Efficient)" "Match Birla (High)"
    "Volatile" = 0.
Proof.
  assert (Hne : "Volatile" <> "Stable") by discriminate.
  split; [exact Hne|].
  destruct (C5_volatility_penalty_before_clamp "Match Birla (High)" "Volatile" Hne)
    as (Hraw & Hclamped & _).
  split; [exact Hraw | exact Hclamped].
Defined.

(** The claim as stated fails: all efficient in the festival season scores 0
    after the clamp, 25 below the stable score of 25 and not 50 below. *)
Lemma C5_clamped_drop_is_not_50 :
  service_score "1x Daily (Efficient)" "Lean (Efficient)" "Standard (Low)"
    "Festival Season" = 0 /\
  service_score "1x Daily (Efficient)" "Lean (Efficient)" "Standard (Low)"
    "Stable" = 25 /\
  0 <> 25 - 50.
Proof. repeat split; try reflexivity. lia. Qed.

(** C6. [calculate_results] reads one field of the session, the market
    share, and nothing else besides its four arguments: two sessions that
    agree on the share give the same five results for the same choices and
    scenario, whatever their period, cash, competitor share, history, flag
    or feedback. *)
Theorem C6_calculate_results_pure :
  forall (st1 st2 : SessionState)
         (delivery inventory incentive demand_type : string),
    market_share st1 = market_share st2 ->
    calculate_results st1 delivery inventory incentive demand_type
    = calculate_results st2 delivery inventory incentive demand_type.
Proof.
  intros st1 st2 delivery inventory incentive demand_type Hshare.
  unfold calculate_results, actual_revenue.
  rewrite Hshare. reflexivity.
Qed.

(** The form offers 8 decision sets; with the 3 scenarios that makes 24
    calls of the engine, all covered by the statement above. *)
Remark engine_inputs_count :
  List.length form_choices = 8%nat /\ List.length engine_inputs = 24%nat.
Proof. split; reflexivity. Qed.

Lemma C6_calculate_results_pure_witness :
  market_share Demo.st0 = market_share (Demo.st_alt) /\
  calculate_results Demo.st0 "1x Daily (Efficient)" "High Buffer (Responsive)"
    "Standard (Low)" "Festival Season"
  = calculate_results (Demo.st_alt) "1x Daily (Efficient)"
      "High Buffer (Responsive)" "Standard (Low)" "Festival Season".
Proof.
  split; [reflexivity|].
  apply C6_calculate_results_pure. reflexivity.
Defined.

(** ** Order on binary64 floats

    [<?] and [<=?] are Python's [<] and [<=] on floats; both are false as
    soon as one side is NaN. *)

Module FloatOrder.

Lemma SFcompare_antisym (a b : spec_float) :
  SFcompare b a = option_map CompOpp (SFcompare a b).
Proof.
  destruct a as [sa|sa| |sa ma ea], b as [sb|sb| |sb mb eb]; simpl;
    try reflexivity;
    try (destruct sa; reflexivity);
    try (destruct sb; reflexivity);
    try (destruct sa, sb; reflexivity).
  destruct sa, sb; simpl; try reflexivity;
    change (Pos.compare_cont Eq mb ma) with (mb ?= ma)%positive;
    change (Pos.compare_cont Eq ma mb) with (ma ?= mb)%positive;
    rewrite (Z.compare_antisym ea eb), (Pos.compare_antisym ma mb);
    destruct (ea ?= eb)%Z, (ma ?= mb)%positive; reflexivity.
Qed.

Lemma SFleb_trans (a b c : spec_float) :
  SFleb a b = true -> SFleb b c = true -> SFleb a c = true.
Proof.
  unfold SFleb, SFcompare.
  destruct a as [sa|sa| |sa ma ea], b as [sb|sb| |sb mb eb],
           c as [sc|sc| |sc mc ec];
    try destruct sa; try destruct sb; try destruct sc;
    simpl; try congruence;
    change (Pos.compare_cont Eq ma mb) with (ma ?= mb)%positive;
    change (Pos.compare_cont Eq mb mc) with (mb ?= mc)%positive;
    change (Pos.compare_cont Eq ma mc) with (ma ?= mc)%positive;
    destruct (Z.compare_spec ea eb), (Z.compare_spec eb ec),
             (Z.compare_spec ea ec);
    simpl; try congruence; try lia;
    destruct (Pos.compare_spec ma mb), (Pos.compare_spec mb mc),
             (Pos.compare_spec ma mc);
    simpl; try congruence; try lia.
Qed.

Lemma leb_ltb_false (x y : float) :
  (x <=? y)%float = true -> (y <? x)%float = false.
Proof.
  rewrite leb_spec, ltb_spec. unfold SFleb, SFltb.
  rewrite (SFcompare_antisym (Prim2SF x) (Prim2SF y)).
  destruct (SFcompare (Prim2SF x) (Prim2SF y)) as [[]|]; simpl; congruence.
Qed.

Lemma leb_trans (x y z : float) :
  (x <=? y)%float = true -> (y <=? z)%float = true -> (x <=? z)%float = true.
Proof. rewrite !leb_spec. apply SFleb_trans. Qed.

End FloatOrder.

(** ** The scenario generator *)

Section Scenario.

Variable RandomState : Type.
Variable np_random_seed : Z -> RandomState.
Variable np_random_random : RandomState -> float * RandomState.

Let generate :=
  scenario_generator RandomState np_random_seed np_random_random.

  (** The draw behind a period's scenario: the first float of the generator
      seeded with [period * 99]. *)
Let scenario_roll (period : Z) : float :=
  fst (np_random_random (np_random_seed (period * 99))).

Lemma scenario_generator_bands (rng : RandomState) (period : Z) :
  fst (fst (generate rng period))
  = if (scenario_roll period <? 0.3)%float then "Stable"
    else if (scenario_roll period <? 0.7)%float then "Volatile"
    else "Festival Season".
Proof.
  unfold generate, scenario_generator, scenario_roll.
  destruct (np_random_random _) as [roll rng']; simpl.
  destruct (roll <? 0.3)%float; [reflexivity|].
  destruct (roll <? 0.7)%float; reflexivity.
Qed.

(** C7. For every period number the generator names exactly one of the
    three scenarios, and the same one on every draw for that period,
    whatever state the global generator was left in: the draw is the first
    float of the generator reseeded with [period * 99] (NumPy takes it from
    [0, 1)), and a draw in [0, 0.3) gives Stable, one in [0.3, 0.7) gives
    Volatile, one in [0.7, 1.0) gives Festival Season. *)
Theorem C7_scenario_by_period :
  forall (period : Z) (rng rng' : RandomState),
    let roll := scenario_roll period in
    let scenario := fst (fst (generate rng period)) in
    In scenario scenarios /\
    fst (fst (generate rng' period)) = scenario /\
    ((0 <=? roll)%float = true -> (roll <? 0.3)%float = true ->
     scenario = "Stable") /\
    ((0.3 <=? roll)%float = true -> (roll <? 0.7)%float = true ->
     scenario = "Volatile") /\
    ((0.7 <=? roll)%float = true -> (roll <? 1.0)%float = true ->
     scenario = "Festival Season").
Proof.
  intros period rng rng' roll scenario.
  subst scenario. rewrite !scenario_generator_bands. fold roll.
  split.
  { unfold scenarios.
    destruct (roll <? 0.3)%float; [simpl; tauto|].
    destruct (roll <? 0.7)%float; simpl; tauto. }
  split; [reflexivity|].
  split; [intros _ Hlt; rewrite Hlt; reflexivity|].
  split.
  - intros Hge Hlt.
    rewrite (FloatOrder.leb_ltb_false _ _ Hge), Hlt. reflexivity.
  - intros Hge _.
    assert (H3 : (0.3 <=? roll)%float = true)
      by (apply (FloatOrder.leb_trans _ 0.7%float); [reflexivity | exact Hge]).
    rewrite (FloatOrder.leb_ltb_false _ _ H3),
            (FloatOrder.leb_ltb_false _ _ Hge).
    reflexivity.
Qed.

End Scenario.

Lemma C7_scenario_by_period_witness :
  fst (fst (scenario_generator Demo.RandomState Demo.np_random_seed
              Demo.np_random_random 0 3)) = "Volatile" /\
  fst (fst (scenario_generator Demo.RandomState Demo.np_random_seed
              Demo.np_random_random 12345 3)) = "Volatile".
Proof.
  destruct (C7_scenario_by_period Demo.RandomState Demo.np_random_seed
              Demo.np_random_random 3 0 12345) as (_ & Hsame & _ & Hband & _).
  split; [|rewrite Hsame]; apply Hband; reflexivity.
Defined.

(** ** The quarter: what the [if submitted:] block does to the session *)

(** The enumerated shares stay at 35 or above, and those a quarter can still
    be played from are at 40 or above. *)
Lemma shares_after_floor :
  forallb
    (fun n =>
       forallb (fun p => (35 <=? fst p) && ((fst p <? 40) || (40 <=? fst p)))%float
               (shares_after n))
    (seq 0 9)
  = true.
Proof. vm_compute. reflexivity. Qed.

(** On the enumerated shares the float sums are exact. *)
Lemma shares_after_exact :
  forallb
    (fun n =>
       forallb (fun p => (fst p <? 40)%float
                         || forallb (exact_transfer p) share_changes)
               (shares_after n))
    (seq 0 8)
  = true.
Proof. vm_compute. reflexivity. Qed.

Lemma shares_after_step (n : nat) (own birla share_change : float) :
  In (own, birla) (shares_after n) ->
  (own <? 40)%float = false ->
  In share_change share_changes ->
  In ((own + share_change)%float, (birla - share_change)%float)
     (shares_after (S n)).
Proof.
  intros Hin Hge Hd. cbn [shares_after]. apply in_flat_map.
  exists (own, birla). split; [exact Hin|].
  cbv beta iota. rewrite Hge.
  exact (in_map (fun d => ((own + d)%float, (birla - d)%float)) _ _ Hd).
Qed.

Section Quarter.

Variable round : float -> Z -> float.

Let turn := submitted round.

Lemma submitted_period st scenario delivery inventory incentive :
  period (turn st scenario delivery inventory incentive) = period st + 1.
Proof.
  unfold turn, submitted, calculate_results.
  destruct (share_impact _); reflexivity.
Qed.

Lemma submitted_shares st scenario delivery inventory incentive :
  let share_change :=
    fst (share_impact (service_score delivery inventory incentive scenario)) in
  market_share (turn st scenario delivery inventory incentive)
  = (market_share st + share_change)%float /\
  birla_share (turn st scenario delivery inventory incentive)
  = (birla_share st - share_change)%float.
Proof.
  unfold turn, submitted, calculate_results.
  destruct (share_impact _); split; reflexivity.
Qed.

Lemma submitted_game_over st scenario delivery inventory incentive :
  let st' := turn st scenario delivery inventory incentive in
  game_over st'
  = (period st' >? MAX_PERIODS) || (cash st' <? 0)%float
    || (market_share st' <? 40)%float || game_over st.
Proof.
  unfold turn, submitted, calculate_results.
  destruct (share_impact _); simpl.
  match goal with |- (if ?b then _ else _) = _ => destruct b end; reflexivity.
Qed.

Lemma reachable_on_track (st : SessionState) :
  reachable round st -> on_track st.
Proof.
  induction 1 as [|st scenario delivery inventory incentive Hreach IH Hplay].
  - exists 0%nat. repeat split; simpl; auto; lia.
  - destruct IH as (n & _ & Hperiod & Hin & Hopen).
    destruct (Hopen Hplay) as [Hn Hshare].
    pose proof (submitted_shares st scenario delivery inventory incentive)
      as [Hown Hbirla]; cbv zeta in Hown, Hbirla.
    pose proof (submitted_game_over st scenario delivery inventory incentive)
      as Hover; cbv zeta in Hover.
    pose proof (submitted_period st scenario delivery inventory incentive)
      as Hnext.
    fold turn.
    exists (S n). split; [lia|]. split; [rewrite Hnext, Hperiod; lia|].
    split.
    + rewrite Hown, Hbirla.
      apply shares_after_step; auto using share_impact_in.
    + intros Hopen'. rewrite Hopen', Hnext, Hperiod in Hover.
      symmetry in Hover.
      apply orb_false_elim in Hover as [Hover _].
      apply orb_false_elim in Hover as [Hover H40].
      apply orb_false_elim in Hover as [Hlate _].
      unfold MAX_PERIODS in Hlate.
      split; [|exact H40].
      destruct (Z.gtb_spec (Z.of_nat n + 1 + 1) 8); [discriminate | lia].
Qed.

(** C3. After a submitted quarter (the game was not over before it), the
    game is over exactly when the period, just incremented, exceeds 8, or
    the cash is below 0, or the own share is below 40.  So a quarter that
    leaves the own share at 39.9 ends the game at once, whatever the period
    and the cash, and so does one that takes the period past 8, whatever the
    cash and the share. *)
Theorem C3_game_over_after_quarter :
  forall (st : SessionState) (scenario delivery inventory incentive : string),
    game_over st = false ->
    let st' := submitted round st scenario delivery inventory incentive in
    period st' = period st + 1 /\
    (game_over st' = true <->
     period st' > MAX_PERIODS \/ (cash st' <? 0)%float = true
     \/ (market_share st' <? 40)%float = true) /\
    (market_share st' = 39.9%float -> game_over st' = true) /\
    (period st' > MAX_PERIODS -> game_over st' = true).
Proof.
  intros st scenario delivery inventory incentive Hopen st'.
  pose proof (submitted_game_over st scenario delivery inventory incentive)
    as Hover; cbv zeta in Hover; unfold turn in Hover; fold st' in Hover.
  rewrite Hopen, orb_false_r in Hover.
  assert (Hiff : game_over st' = true <->
                 period st' > MAX_PERIODS \/ (cash st' <? 0)%float = true
                 \/ (market_share st' <? 40)%float = true).
  { rewrite Hover, !orb_true_iff, Z.gtb_gt. tauto. }
  split; [apply (submitted_period st)|].
  split; [exact Hiff|].
  split.
  - intros H399. apply Hiff. right; right. rewrite H399. reflexivity.
  - intros Hlate. apply Hiff. left. exact Hlate.
Qed.

(** C8. A quarter adds the share change to the own share and subtracts the
    same share change from Birla's share.  In a run (quarters submitted
    while the game is not over) these float sums are exact: the own share
    moves by the share change, Birla's by its opposite, and the two shares
    keep their sum. *)
Theorem C8_zero_sum_transfer :
  forall (st : SessionState) (scenario delivery inventory incentive : string),
    let st' := submitted round st scenario delivery inventory incentive in
    let '(_, share_change, _, _, _) :=
      calculate_results st delivery inventory incentive scenario in
    market_share st' = (market_share st + share_change)%float /\
    birla_share st' = (birla_share st - share_change)%float /\
    (reachable round st -> game_over st = false ->
     (market_share st' - market_share st =? share_change)%float = true /\
     (birla_share st' - birla_share st =? - share_change)%float = true /\
     (market_share st' + birla_share st'
      =? market_share st + birla_share st)%float = true).
Proof.
  intros st scenario delivery inventory incentive st'.
  pose proof (submitted_shares st scenario delivery inventory incentive)
    as [Hown Hbirla]; cbv zeta in Hown, Hbirla; unfold turn in Hown, Hbirla;
    fold st' in Hown, Hbirla.
  pose proof (share_impact_in
                (service_score delivery inventory incentive scenario)) as Hd.
  unfold calculate_results.
  destruct (share_impact _) as [share_change feedback]; simpl in *.
  split; [exact Hown|]. split; [exact Hbirla|].
  intros Hreach Hopen.
  destruct (reachable_on_track st Hreach) as (n & _ & _ & Hin & Hplay).
  destruct (Hplay Hopen) as [Hn H40].
  pose proof shares_after_exact as Hexact.
  rewrite forallb_forall in Hexact.
  specialize (Hexact n). rewrite in_seq in Hexact.
  assert (Hall := Hexact ltac:(lia)).
  rewrite forallb_forall in Hall. specialize (Hall _ Hin).
  cbn [fst] in Hall. rewrite H40 in Hall. cbn [orb] in Hall.
  rewrite forallb_forall in Hall. specialize (Hall _ Hd).
  unfold exact_transfer in Hall.
  rewrite !andb_true_iff in Hall. destruct Hall as [[H1 H2] H3].
  rewrite Hown, Hbirla. auto.
Qed.

(** C10. In every state of a run (start at share 59.0, quarters submitted
    only while the game is not over) the own share is at least 35, and at
    least 40 while the game is not over: a quarter is played from 40 or
    more and takes off 5.0 at most. *)
Theorem C10_own_share_floor :
  forall st : SessionState,
    reachable round st ->
    (35 <=? market_share st)%float = true /\
    (game_over st = false -> (40 <=? market_share st)%float = true) /\
    forallb (fun share_change => (-5.0 <=? share_change)%float) share_changes
    = true.
Proof.
  intros st Hreach.
  destruct (reachable_on_track st Hreach) as (n & Hn & _ & Hin & Hplay).
  pose proof shares_after_floor as Hfloor.
  rewrite forallb_forall in Hfloor.
  specialize (Hfloor n). rewrite in_seq in Hfloor.
  assert (Hall := Hfloor ltac:(lia)).
  rewrite forallb_forall in Hall. specialize (Hall _ Hin).
  cbn [fst] in Hall. apply andb_true_iff in Hall as [H35 H40].
  split; [exact H35|]. split; [|reflexivity].
  intros Hopen. destruct (Hplay Hopen) as [_ Hge].
  rewrite Hge in H40. exact H40.
Qed.

End Quarter.

Lemma C3_game_over_after_quarter_witness :
  game_over Demo.st0 = false /\
  period Demo.st1 = 2 /\
  (game_over Demo.st1 = true <->
   period Demo.st1 > MAX_PERIODS \/ (cash Demo.st1 <? 0)%float = true
   \/ (market_share Demo.st1 <? 40)%float = true).
Proof.
  split; [reflexivity|].
  destruct (C3_game_over_after_quarter Demo.round Demo.st0 "Volatile"
              "1x Daily (Efficient)" "Lean (Efficient)" "Standard (Low)"
              eq_refl) as (Hperiod & Hiff & _).
  split; [exact Hperiod | exact Hiff].
Defined.

(** The fourth all-efficient quarter of a volatile run takes the share from
    44 to 39 and ends the game in period 5, with 220 left in cash. *)
Example game_over_by_share :
  (period Demo.st_over, cash Demo.st_over, market_share Demo.st_over,
   game_over Demo.st_over)
  = (5, 220%float, 39%float, true).
Proof. reflexivity. Qed.

Lemma C8_zero_sum_transfer_witness :
  market_share Demo.st1 = (market_share Demo.st0 + -5.0)%float /\
  birla_share Demo.st1 = (birla_share Demo.st0 - -5.0)%float /\
  (market_share Demo.st1 - market_share Demo.st0 =? -5.0)%float = true /\
  (birla_share Demo.st1 - birla_share Demo.st0 =? 5.0)%float = true /\
  (market_share Demo.st1 + birla_share Demo.st1 =? 64)%float = true.
Proof.
  pose proof (C8_zero_sum_transfer Demo.round Demo.st0 "Volatile"
                "1x Daily (Efficient)" "Lean (Efficient)" "Standard (Low)")
    as (Hown & Hbirla & Hexact).
  destruct (Hexact (reachable_start Demo.round) eq_refl) as (H1 & H2 & H3).
  repeat split; assumption.
Defined.

Lemma C10_own_share_floor_witness :
  reachable Demo.round Demo.st1 /\
  (35 <=? market_share Demo.st1)%float = true.
Proof.
  assert (Hreach : reachable Demo.round Demo.st1).
  { apply reachable_turn; [apply reachable_start | reflexivity]. }
  split; [exact Hreach|].
  exact (proj1 (C10_own_share_floor Demo.round Demo.st1 Hreach)).
Defined.

(** ** Terminal sessions and submitted decisions *)

Section Terminal.

Variable RandomState : Type.
Variable np_random_seed : Z -> RandomState.
Variable np_random_random : RandomState -> float * RandomState.
Variable round : float -> Z -> float.

Let run_from_game_over_check := play RandomState np_random_seed np_random_random round.
Let run_script := script RandomState np_random_seed np_random_random round.

(** C9, as the code has it.  From the game-over check on, a session whose
    game is over is answered with the game-over screen and [st.stop()]: the
    session and the generator are left as they were and nothing is raised,
    whatever the user did.  A decision submitted while the game is not over
    is always processed: the session becomes the one [submitted] computes
    for the period's scenario, the script asks for a rerun and nothing is
    raised. *)
Theorem C9_game_over_stops_without_error :
  forall (st : SessionState) (rng : RandomState),
    (game_over st = true ->
     forall ev : event, run_from_game_over_check st rng ev = (st, rng, Stopped)) /\
    (game_over st = false ->
     forall delivery inventory incentive,
       let '(scenario, _, rng') :=
         scenario_generator RandomState np_random_seed np_random_random rng
           (period st) in
       run_from_game_over_check st rng (RunQuarter delivery inventory incentive)
       = (submitted round st scenario (delivery_option delivery)
            (inventory_option inventory) (incentive_option incentive),
          rng', Rerun)) /\
    (forall delivery inventory incentive,
       raised (snd (run_from_game_over_check st rng
                      (RunQuarter delivery inventory incentive))) = false).
Proof.
  intros st rng. unfold run_from_game_over_check, play.
  split; [intros Hover ev; rewrite Hover; reflexivity|].
  split.
  - intros Hopen delivery inventory incentive. rewrite Hopen.
    destruct (scenario_generator _ _ _ _ _) as [[scenario context] rng'].
    reflexivity.
  - intros delivery inventory incentive.
    destruct (game_over st); [reflexivity|].
    destruct (scenario_generator _ _ _ _ _) as [[scenario context] rng'].
    reflexivity.
Qed.

Lemma reachable_no_lowercase_key (st : SessionState) :
  reachable round st -> no_lowercase_key st.
Proof.
  unfold no_lowercase_key.
  induction 1 as [|st scenario delivery inventory incentive Hreach IH Hplay].
  - constructor.
  - unfold submitted, calculate_results.
    destruct (share_impact _); simpl.
    apply Forall_app. split; [exact IH|].
    constructor; [reflexivity | constructor].
Qed.

Lemma script_raises_without_key (st : SessionState) (rng : RandomState) (ev : event) :
  no_lowercase_key st ->
  history st <> [] ->
  run_script (Some st) rng ev = (st, rng, Raised (Py.KeyError "market_share_end")).
Proof.
  unfold no_lowercase_key. intros Hkeys Hhist.
  unfold run_script, script, share_delta. cbn [init_game].
  destruct (history st) as [|record records] eqn:Hh; [congruence|].
  assert (Hlast : In (last (record :: records) []) (record :: records)).
  { destruct (exists_last (l := record :: records)) as (l' & a & Heq);
      [discriminate|].
    rewrite Heq, last_last. apply in_or_app. right. left. reflexivity. }
  rewrite Forall_forall in Hkeys. rewrite (Hkeys _ Hlast). reflexivity.
Qed.

(** X11. The sidebar reads [history[-1]['market_share_end']], a key that no
    record has: once a quarter of a run has been recorded, every run of the
    script ends there with a [KeyError], whatever the user did, before the
    restart button, the game-over check and the form, and leaves the
    session and the generator as they were. *)
Lemma script_raises_once_history (st : SessionState) (rng : RandomState) (ev : event) :
  reachable round st ->
  history st <> [] ->
  run_script (Some st) rng ev = (st, rng, Raised (Py.KeyError "market_share_end")).
Proof.
  intros Hreach Hhist.
  apply script_raises_without_key; [|exact Hhist].
  apply reachable_no_lowercase_key. exact Hreach.
Qed.

(** A run of the script takes a session of a run to a session of a run: it
    leaves it as it is, restarts it, or plays one quarter while the game is
    not over. *)
Lemma script_reachable (session_state : option SessionState) (rng : RandomState)
    (ev : event) :
  match session_state with
  | Some st => reachable round st
  | None => True
  end ->
  reachable round (fst (fst (run_script session_state rng ev))).
Proof.
  intros Hss.
  assert (Hst : reachable round (init_game session_state)).
  { destruct session_state as [st|]; [exact Hss | apply reachable_start]. }
  unfold run_script, script.
  destruct (share_delta (init_game session_state)) as [e|delta]; [exact Hst|].
  assert (Hplay : forall ev',
             reachable round
               (fst (fst (run_from_game_over_check (init_game session_state)
                            rng ev')))).
  { intros ev'. unfold run_from_game_over_check, play.
    destruct (game_over (init_game session_state)) eqn:Hover; [exact Hst|].
    destruct (scenario_generator _ _ _ _ _) as [[scenario context] rng'].
    destruct ev' as [| |delivery inventory incentive]; cbn [fst].
    - destruct (history _); [exact Hst|].
      destruct (Py.getitem _ _); exact Hst.
    - destruct (history _); [exact Hst|].
      destruct (Py.getitem _ _); exact Hst.
    - apply reachable_turn; assumption. }
  destruct ev as [| |delivery inventory incentive].
  - apply Hplay.
  - apply reachable_start.
  - apply Hplay.
Qed.

End Terminal.

(** The claim as stated fails.  In [Demo.st_over] the game is over, and a
    decision submitted there is answered by the game-over check with
    [Stopped], not with an error; the script as a whole does raise, but the
    sidebar's [KeyError], and it raises the same on [Demo.st1], where the
    game is not over. *)
Lemma C9_no_invalid_state_error :
  game_over Demo.st_over = true /\
  Demo.play Demo.st_over 0 (RunQuarter Responsive HighBuffer MatchBirla)
  = (Demo.st_over, 0, Stopped) /\
  raised Stopped = false /\
  Demo.script (Some Demo.st_over) 0 (RunQuarter Responsive HighBuffer MatchBirla)
  = (Demo.st_over, 0, Raised (Py.KeyError "market_share_end")) /\
  game_over Demo.st1 = false /\
  Demo.script (Some Demo.st1) 0 (RunQuarter Responsive HighBuffer MatchBirla)
  = (Demo.st1, 0, Raised (Py.KeyError "market_share_end")).
Proof. repeat split; reflexivity. Qed.

(** * Further properties of the engine *)

Lemma share_changes_distinct :
  0.5%float <> (-1.5)%float /\ 0.5%float <> (-5.0)%float
  /\ (-1.5)%float <> (-5.0)%float.
Proof.
  repeat split; intros H.
  - apply (f_equal (fun x => (x <? 0)%float)) in H. discriminate H.
  - apply (f_equal (fun x => (x <? 0)%float)) in H. discriminate H.
  - apply (f_equal (fun x => (x <? -2)%float)) in H. discriminate H.
Qed.

(** X1. Each responsive choice costs more and never scores less than the
    efficient one, whatever the other two choices and the scenario: four
    deliveries a day cost 50 more than one, a high buffer 30 more than lean
    stock, matching Birla's margins 40 more than standard commissions. *)
Theorem X1_responsive_costs_more_and_scores_no_less :
  forall (delivery inventory incentive demand_type : string),
    (total_opex "4x Daily (Responsive)" inventory incentive
     = total_opex "1x Daily (Efficient)" inventory incentive + 50 /\
     service_score "1x Daily (Efficient)" inventory incentive demand_type
     <= service_score "4x Daily (Responsive)" inventory incentive demand_type) /\
    (total_opex delivery "High Buffer (Responsive)" incentive
     = total_opex delivery "Lean (Efficient)" incentive + 30 /\
     service_score delivery "Lean (Efficient)" incentive demand_type
     <= service_score delivery "High Buffer (Responsive)" incentive demand_type) /\
    (total_opex delivery inventory "Match Birla (High)"
     = total_opex delivery inventory "Standard (Low)" + 40 /\
     service_score delivery inventory "Standard (Low)" demand_type
     <= service_score delivery inventory "Match Birla (High)" demand_type).
Proof.
  intros delivery inventory incentive demand_type.
  unfold total_opex, logistics_cost, inventory_cost, incentive_cost,
    service_score, unclamped_service_score, apply_volatility,
    base_service_score, clamp_score.
  cbn [String.eqb Ascii.eqb Bool.eqb negb andb].
  destruct (demand_type =? "Stable"); cbn [negb];
    destruct (delivery =? "4x Daily (Responsive)"),
             (delivery =? "1x Daily (Efficient)"),
             (inventory =? "High Buffer (Responsive)"),
             (inventory =? "Lean (Efficient)"),
             (incentive =? "Match Birla (High)");
    lia.
Qed.

(** X2. Which share change a submitted form earns.  The share grows (0.5)
    exactly when delivery is responsive and the buffer high, in every
    scenario and whatever the commissions; it bleeds slowly (-1.5) exactly
    in a stable market with matched commissions and one of the two other
    levers efficient; in every other case it drops by 5.0. *)
Theorem X2_share_change_table :
  forall (st : SessionState) (delivery : DeliveryFrequency)
         (inventory : InventoryPolicy) (incentive : DealerIncentive)
         (demand_type : string),
    let '(_, share_change, _, _, _) :=
      calculate_results st (delivery_option delivery) (inventory_option inventory)
        (incentive_option incentive) demand_type in
    let grows := delivery = Responsive /\ inventory = HighBuffer in
    let bleeds :=
      demand_type = "Stable" /\ incentive = MatchBirla /\
      (delivery = Responsive /\ inventory = Lean
       \/ delivery = Efficient /\ inventory = HighBuffer) in
    (share_change = 0.5%float <-> grows) /\
    (share_change = (-1.5)%float <-> bleeds) /\
    (share_change = (-5.0)%float <-> ~ grows /\ ~ bleeds).
Proof.
  intros st delivery inventory incentive demand_type.
  destruct share_changes_distinct as (D1 & D2 & D3).
  unfold calculate_results, service_score, unclamped_service_score,
    apply_volatility, base_service_score, clamp_score.
  destruct (String.eqb_spec demand_type "Stable") as [Hs|Hs];
    destruct delivery, inventory, incentive; cbn;
    intuition (try congruence; try discriminate).
Qed.

(** X3. What the clamp does.  The score never exceeds 100 before the clamp,
    for any arguments, so [min(100, .)] changes nothing; for what the form
    can submit the score is negative before the clamp exactly when delivery
    and inventory are both efficient in a market that is not stable, and
    only then does [max(0, .)] change it, to 0. *)
Theorem X3_clamp_only_lifts_all_efficient :
  forall (delivery : DeliveryFrequency) (inventory : InventoryPolicy)
         (incentive : DealerIncentive) (demand_type : string),
    let raw :=
      unclamped_service_score (delivery_option delivery)
        (inventory_option inventory) (incentive_option incentive) demand_type in
    let score :=
      service_score (delivery_option delivery) (inventory_option inventory)
        (incentive_option incentive) demand_type in
    (forall d i c s : string, unclamped_service_score d i c s <= 100) /\
    (raw < 0 <->
     delivery = Efficient /\ inventory = Lean /\ demand_type <> "Stable") /\
    (0 <= raw -> score = raw) /\
    (raw < 0 -> score = 0).
Proof.
  intros delivery inventory incentive demand_type raw score.
  split.
  { intros d i c s.
    unfold unclamped_service_score, apply_volatility, base_service_score.
    destruct (s =? "Stable"); cbn [negb];
      destruct (d =? "4x Daily (Responsive)"), (d =? "1x Daily (Efficient)"),
               (i =? "High Buffer (Responsive)"), (i =? "Lean (Efficient)"),
               (c =? "Match Birla (High)"); lia. }
  subst raw score.
  unfold service_score, unclamped_service_score, apply_volatility,
    base_service_score, clamp_score.
  destruct (String.eqb_spec demand_type "Stable") as [Hs|Hs];
    destruct delivery, inventory, incentive; cbn;
    repeat split; intros; try lia; try congruence; try discriminate;
    repeat match goal with H : _ /\ _ |- _ => destruct H end;
    try congruence; try discriminate.
Qed.

(** X4. A scenario name the engine does not know, neither "Stable" nor
    "Festival Season", is handled exactly as "Volatile": the volatility
    penalties apply and the demand multiplier is 1.0. *)
Theorem X4_unknown_scenario_is_volatile :
  forall (st : SessionState) (delivery inventory incentive demand_type : string),
    demand_type <> "Stable" ->
    demand_type <> "Festival Season" ->
    calculate_results st delivery inventory incentive demand_type
    = calculate_results st delivery inventory incentive "Volatile".
Proof.
  intros st delivery inventory incentive demand_type Hs Hf.
  apply String.eqb_neq in Hs. apply String.eqb_neq in Hf.
  unfold calculate_results, service_score, unclamped_service_score,
    apply_volatility, actual_revenue, demand_multiplier.
  rewrite Hs, Hf. reflexivity.
Qed.

Lemma X4_unknown_scenario_is_volatile_witness :
  calculate_results Demo.st0 "4x Daily (Responsive)" "Lean (Efficient)"
    "Match Birla (High)" "Recession"
  = calculate_results Demo.st0 "4x Daily (Responsive)" "Lean (Efficient)"
      "Match Birla (High)" "Volatile".
Proof.
  apply X4_unknown_scenario_is_volatile; discriminate.
Defined.

(** X5. The bonus and cost tests compare with the responsive labels, the
    volatility tests with the efficient ones.  So a delivery (or inventory)
    argument that is neither label is costed and scored as the efficient
    choice in a stable market, but escapes the penalty of 20 (or 30) that
    the efficient choice takes in any other market. *)
Theorem X5_unrecognised_label_escapes_penalty :
  forall (other incentive demand_type : string),
    (other <> "4x Daily (Responsive)" -> other <> "1x Daily (Efficient)" ->
     forall inventory : string,
       total_opex other inventory incentive
       = total_opex "1x Daily (Efficient)" inventory incentive /\
       unclamped_service_score other inventory incentive demand_type
       = unclamped_service_score "1x Daily (Efficient)" inventory incentive
           demand_type
         + (if demand_type =? "Stable" then 0 else 20)) /\
    (other <> "High Buffer (Responsive)" -> other <> "Lean (Efficient)" ->
     forall delivery : string,
       total_opex delivery other incentive
       = total_opex delivery "Lean (Efficient)" incentive /\
       unclamped_service_score delivery other incentive demand_type
       = unclamped_service_score delivery "Lean (Efficient)" incentive
           demand_type
         + (if demand_type =? "Stable" then 0 else 30)).
Proof.
  intros other incentive demand_type.
  unfold total_opex, logistics_cost, inventory_cost, unclamped_service_score,
    apply_volatility, base_service_score.
  split; intros H1 H2 arg;
    apply String.eqb_neq in H1; apply String.eqb_neq in H2;
    rewrite H1, H2; cbn [String.eqb Ascii.eqb Bool.eqb negb andb];
    destruct (demand_type =? "Stable"); cbn [negb];
    repeat match goal with
           | |- context [String.eqb arg ?l] => destruct (String.eqb arg l)
           end;
    split; lia.
Qed.

Lemma X5_unrecognised_label_escapes_penalty_witness :
  unclamped_service_score "2x Daily" "High Buffer (Responsive)"
    "Match Birla (High)" "Volatile" = 70 /\
  unclamped_service_score "1x Daily (Efficient)" "High Buffer (Responsive)"
    "Match Birla (High)" "Volatile" = 50.
Proof.
  destruct (X5_unrecognised_label_escapes_penalty "2x Daily"
              "Match Birla (High)" "Volatile") as [Hdelivery _].
  assert (H1 : "2x Daily" <> "4x Daily (Responsive)") by discriminate.
  assert (H2 : "2x Daily" <> "1x Daily (Efficient)") by discriminate.
  destruct (Hdelivery H1 H2 "High Buffer (Responsive)") as [_ Hscore].
  split; [rewrite Hscore|]; reflexivity.
Defined.

(** * Further properties of a run *)

Lemma calculate_results_share (st : SessionState)
    (delivery inventory incentive demand_type : string) :
  calculate_results st delivery inventory incentive demand_type
  = calculate_results (session_with_share (market_share st)) delivery inventory
      incentive demand_type.
Proof. reflexivity. Qed.

Lemma engine_inputs_complete (delivery : DeliveryFrequency)
    (inventory : InventoryPolicy) (incentive : DealerIncentive) (scenario : string) :
  In scenario scenarios ->
  In (delivery_option delivery, inventory_option inventory,
      incentive_option incentive, scenario) engine_inputs.
Proof.
  intros Hs. unfold engine_inputs, form_choices.
  apply in_prod; [|exact Hs].
  apply in_prod; [apply in_prod|].
  - destruct delivery; simpl; tauto.
  - destruct inventory; simpl; tauto.
  - destruct incentive; simpl; tauto.
Qed.

Lemma shares_after_figures :
  forallb
    (fun n =>
       forallb (fun p => (fst p <? 40)%float || quarter_figures_ok (fst p))
               (shares_after n))
    (seq 0 8)
  = true.
Proof. vm_compute. reflexivity. Qed.

Lemma shares_after_range :
  forallb (fun n => forallb shares_in_range (shares_after n)) (seq 0 9) = true.
Proof. vm_compute. reflexivity. Qed.

Section Run.

Variable round : float -> Z -> float.

(** X6. The figures of a quarter in a run.  Whatever the form submits and
    whichever of the three scenarios is shown, a quarter played while the
    game is not over loses at most 110 and earns at most 278.75, on a
    revenue that is never negative; with responsive delivery and a high
    buffer it earns at least 10. *)
Theorem X6_quarter_profit_range :
  forall (st : SessionState),
    reachable round st ->
    game_over st = false ->
    forall (delivery : DeliveryFrequency) (inventory : InventoryPolicy)
           (incentive : DealerIncentive) (scenario : string),
      In scenario scenarios ->
      let '(net_profit, _, _, _, revenue) :=
        calculate_results st (delivery_option delivery)
          (inventory_option inventory) (incentive_option incentive) scenario in
      (-110 <=? net_profit)%float = true /\
      (net_profit <=? 278.75)%float = true /\
      (0 <=? revenue)%float = true /\
      (delivery = Responsive -> inventory = HighBuffer ->
       (10 <=? net_profit)%float = true).
Proof.
  intros st Hreach Hopen delivery inventory incentive scenario Hs.
  destruct (reachable_on_track round st Hreach) as (n & _ & _ & Hin & Hplay).
  destruct (Hplay Hopen) as [Hn H40].
  pose proof shares_after_figures as Hall.
  rewrite forallb_forall in Hall. specialize (Hall n).
  rewrite in_seq in Hall. assert (Hlevel := Hall ltac:(lia)).
  rewrite forallb_forall in Hlevel. specialize (Hlevel _ Hin).
  cbn [fst] in Hlevel. rewrite H40 in Hlevel. cbn [orb] in Hlevel.
  unfold quarter_figures_ok in Hlevel. rewrite forallb_forall in Hlevel.
  specialize (Hlevel _ (engine_inputs_complete delivery inventory incentive
                          scenario Hs)).
  cbv beta iota in Hlevel.
  rewrite <- calculate_results_share in Hlevel.
  destruct (calculate_results st _ _ _ _) as [[[[net_profit share_change] feedback] opex] revenue].
  rewrite !andb_true_iff in Hlevel.
  destruct Hlevel as [[[Hlo Hhi] Hrev] Hgood].
  repeat split; try assumption.
  intros -> ->. cbn in Hgood. exact Hgood.
Qed.

Lemma submitted_history st scenario delivery inventory incentive :
  exists strategy profit share_end,
    history (submitted round st scenario delivery inventory incentive)
    = (history st ++
       [[("Quarter", Py.Int (period st)); ("Scenario", Py.Str scenario);
         ("Strategy", Py.Str strategy); ("Profit", Py.Float profit);
         ("Market_Share_End", Py.Float share_end)]])%list.
Proof.
  unfold submitted, calculate_results.
  destruct (share_impact _); cbn [history].
  eexists _, _, _. reflexivity.
Qed.

Lemma reachable_period_history (st : SessionState) :
  reachable round st -> period st = Z.of_nat (List.length (history st)) + 1.
Proof.
  induction 1 as [|st scenario delivery inventory incentive Hreach IH Hplay].
  - reflexivity.
  - destruct (submitted_history st scenario delivery inventory incentive)
      as (strategy & profit & share_end & Hhist).
    rewrite Hhist, submitted_period, length_app, IH. cbn [List.length]. lia.
Qed.

Lemma reachable_record_keys (st : SessionState) :
  reachable round st ->
  Forall (fun record => map fst record = record_keys) (history st).
Proof.
  induction 1 as [|st scenario delivery inventory incentive Hreach IH Hplay].
  - constructor.
  - destruct (submitted_history st scenario delivery inventory incentive)
      as (strategy & profit & share_end & Hhist).
    rewrite Hhist. apply Forall_app. split; [exact IH|].
    constructor; [reflexivity | constructor].
Qed.

(** X7. The history of a run.  It holds one record per processed quarter,
    so the period is always the number of records plus one; the records
    carry the quarter numbers 1, 2, 3, ... in order, and each has exactly
    the keys Quarter, Scenario, Strategy, Profit and Market_Share_End. *)
Theorem X7_history_records_quarters :
  forall st : SessionState,
    reachable round st ->
    period st = Z.of_nat (List.length (history st)) + 1 /\
    map (fun record => Py.getitem record "Quarter") (history st)
    = map (fun k => Some (Py.Int (Z.of_nat k)))
          (seq 1 (List.length (history st))) /\
    Forall (fun record => map fst record = record_keys) (history st).
Proof.
  intros st Hreach.
  split; [apply reachable_period_history; exact Hreach|].
  split; [|apply reachable_record_keys; exact Hreach].
  induction Hreach as [|st scenario delivery inventory incentive Hreach IH Hplay].
  - reflexivity.
  - destruct (submitted_history st scenario delivery inventory incentive)
      as (strategy & profit & share_end & Hhist).
    rewrite Hhist, length_app, map_app, IH.
    cbn [List.length map Py.getitem String.eqb Ascii.eqb Bool.eqb].
    rewrite Nat.add_1_r, seq_S, map_app. cbn [map].
    rewrite (reachable_period_history st Hreach).
    do 4 f_equal. lia.
Qed.

(** X8. The horizon.  In a run the period stays between 1 and 9 and at most
    8 quarters are recorded; a quarter can only be submitted in periods 1
    to 8, and in period 9 the game is over. *)
Theorem X8_at_most_eight_quarters :
  forall st : SessionState,
    reachable round st ->
    1 <= period st <= 9 /\
    (List.length (history st) <= 8)%nat /\
    (game_over st = false -> period st <= MAX_PERIODS) /\
    (period st = 9 -> game_over st = true).
Proof.
  intros st Hreach.
  destruct (reachable_on_track round st Hreach) as (n & Hn & Hperiod & _ & Hplay).
  pose proof (reachable_period_history st Hreach) as Hlen.
  unfold MAX_PERIODS.
  repeat split; try lia.
  - intros Hopen. destruct (Hplay Hopen). lia.
  - intros H9. destruct (game_over st); [reflexivity|].
    destruct (Hplay eq_refl). lia.
Qed.

(** X9. The range of the shares.  In every state of a run the two shares
    add up to 64 (the 59 and 5 of the start), the own share is at most 63
    and Birla's share stays between 1 and 29: neither share ever leaves
    [0, 100], although nothing clamps them. *)
Theorem X9_shares_add_up_to_64 :
  forall st : SessionState,
    reachable round st ->
    (market_share st + birla_share st =? 64)%float = true /\
    (market_share st <=? 63)%float = true /\
    (1 <=? birla_share st)%float = true /\
    (birla_share st <=? 29)%float = true.
Proof.
  intros st Hreach.
  destruct (reachable_on_track round st Hreach) as (n & Hn & _ & Hin & _).
  pose proof shares_after_range as Hall.
  rewrite forallb_forall in Hall. specialize (Hall n).
  rewrite in_seq in Hall. assert (Hlevel := Hall ltac:(lia)).
  rewrite forallb_forall in Hlevel. specialize (Hlevel _ Hin).
  unfold shares_in_range in Hlevel.
  rewrite !andb_true_iff in Hlevel. tauto.
Qed.

End Run.

Lemma Demo_st1_reachable : reachable Demo.round Demo.st1.
Proof. apply reachable_turn; [apply reachable_start | reflexivity]. Qed.

Lemma X6_quarter_profit_range_witness :
  (-110 <=? 54.875)%float = true /\ (54.875 <=? 278.75)%float = true.
Proof.
  pose proof (X6_quarter_profit_range Demo.round Demo.st0
                (reachable_start Demo.round) eq_refl
                Efficient HighBuffer Standard "Festival Season"
                ltac:(simpl; tauto)) as (Hlo & Hhi & _).
  split; [exact Hlo | exact Hhi].
Defined.

Lemma X7_history_records_quarters_witness :
  period Demo.st_over = 5 /\
  map (fun record => Py.getitem record "Quarter") (history Demo.st_over)
  = [Some (Py.Int 1); Some (Py.Int 2); Some (Py.Int 3); Some (Py.Int 4)].
Proof.
  assert (Hreach : reachable Demo.round Demo.st_over).
  { repeat (apply reachable_turn; [|reflexivity]). apply reachable_start. }
  destruct (X7_history_records_quarters Demo.round Demo.st_over Hreach)
    as (Hperiod & Hquarters & _).
  split; [exact Hperiod | exact Hquarters].
Defined.

Lemma X8_at_most_eight_quarters_witness :
  1 <= period Demo.st1 <= 9 /\ (List.length (history Demo.st1) <= 8)%nat.
Proof.
  destruct (X8_at_most_eight_quarters Demo.round Demo.st1 Demo_st1_reachable)
    as (Hperiod & Hlen & _).
  split; [exact Hperiod | exact Hlen].
Defined.

Lemma X9_shares_add_up_to_64_witness :
  (market_share Demo.st1 + birla_share Demo.st1 =? 64)%float = true.
Proof.
  exact (proj1 (X9_shares_add_up_to_64 Demo.round Demo.st1 Demo_st1_reachable)).
Defined.

(** * Further properties of the script *)

Lemma getitem_None (record : Py.dict) (key : string) :
  Py.getitem record key = None <-> ~ In key (map fst record).
Proof.
  induction record as [|[k v] record IH]; cbn [Py.getitem map fst In].
  - tauto.
  - destruct (String.eqb_spec k key) as [->|Hne].
    + split; [discriminate | intros H; exfalso; apply H; left; reflexivity].
    + rewrite IH. tauto.
Qed.

Lemma last_in (A : Type) (x : A) (l : list A) (d : A) : In (last (x :: l) d) (x :: l).
Proof.
  destruct (exists_last (l := x :: l)) as (l' & a & Heq); [discriminate|].
  rewrite Heq, last_last. apply in_or_app. right. left. reflexivity.
Qed.

Section Browser.

Variable RandomState : Type.
Variable np_random_seed : Z -> RandomState.
Variable np_random_random : RandomState -> float * RandomState.
Variable round : float -> Z -> float.

Let generate := scenario_generator RandomState np_random_seed np_random_random.
Let from_game_over_check := play RandomState np_random_seed np_random_random round.
Let run_script := script RandomState np_random_seed np_random_random round.
Let run_scripts := script_runs RandomState np_random_seed np_random_random round.

Lemma scenario_generator_in (rng : RandomState) (period : Z) :
  In (fst (fst (generate rng period))) scenarios.
Proof.
  unfold generate. rewrite scenario_generator_bands. unfold scenarios.
  destruct (_ <? 0.3)%float; [simpl; tauto|].
  destruct (_ <? 0.7)%float; simpl; tauto.
Qed.


Lemma first_quarter_open (delivery : DeliveryFrequency) (inventory : InventoryPolicy)
    (incentive : DealerIncentive) (scenario : string) :
  In scenario scenarios ->
  let st :=
    submitted round (init_game None) scenario (delivery_option delivery)
      (inventory_option inventory) (incentive_option incentive) in
  period st = 2 /\ game_over st = false /\ List.length (history st) = 1%nat
  /\ no_lowercase_key st.
Proof.
  intros Hs st. unfold scenarios in Hs. cbn [In] in Hs.
  assert (Hkeys : no_lowercase_key st).
  { apply reachable_no_lowercase_key with (round := round).
    apply reachable_turn; [apply reachable_start | reflexivity]. }
  destruct Hs as [<-|[<-|[<-|[]]]];
    destruct delivery, inventory, incentive;
    (split; [reflexivity|]; split; [vm_compute; reflexivity|];
     split; [reflexivity | exact Hkeys]).
Qed.

Lemma script_keeps_first_quarter (session_state : option SessionState)
    (rng : RandomState) (ev : event) :
  opening_or_first_quarter round session_state ->
  opening_or_first_quarter round (Some (fst (fst (run_script session_state rng ev))))
  /\ stopped (snd (run_script session_state rng ev)) = false.
Proof.
  intros Hss.
  assert (Hopening :
            init_game session_state = init_game None ->
            opening_or_first_quarter round
              (Some (fst (fst (run_script session_state rng ev))))
            /\ stopped (snd (run_script session_state rng ev)) = false).
  { intros Hinit. unfold run_script, script. rewrite Hinit.
    cbn [share_delta init_game history].
    destruct ev as [| |delivery inventory incentive].
    - unfold play. cbn [game_over history period].
      destruct (scenario_generator _ _ _ _ _) as [[scenario context] rng'].
      split; [right; left; reflexivity | reflexivity].
    - split; [right; left; reflexivity | reflexivity].
    - unfold play. cbn [game_over history period].
      pose proof (scenario_generator_in rng 1) as Hs. unfold generate in Hs.
      destruct (scenario_generator _ _ _ _ _) as [[scenario context] rng'].
      split; [|reflexivity].
      right; right. exists scenario, delivery, inventory, incentive.
      split; [exact Hs | reflexivity]. }
  destruct Hss as [->|[->|(scenario & delivery & inventory & incentive & Hs & ->)]].
  - apply Hopening. reflexivity.
  - apply Hopening. reflexivity.
  - destruct (first_quarter_open delivery inventory incentive scenario Hs)
      as (_ & _ & Hlen & Hkeys).
    unfold run_script.
    rewrite script_raises_without_key;
      [| exact Hkeys | intros Hnil; rewrite Hnil in Hlen; discriminate].
    split; [|reflexivity].
    right; right. exists scenario, delivery, inventory, incentive.
    split; [exact Hs | reflexivity].
Qed.

Lemma script_runs_keep_first_quarter (evs : list event) :
  forall (session_state : option SessionState) (rng : RandomState),
    opening_or_first_quarter round session_state ->
    opening_or_first_quarter round (fst (run_scripts session_state rng evs)).
Proof.
  induction evs as [|ev evs IH]; intros session_state rng Hss; [exact Hss|].
  unfold run_scripts. cbn [script_runs]. fold run_script.
  destruct (script_keeps_first_quarter session_state rng ev Hss) as [Hnext _].
  destruct (run_script session_state rng ev) as [[st rng'] o].
  apply IH. exact Hnext.
Qed.

Lemma script_runs_some (evs : list event) :
  forall (st : SessionState) (rng : RandomState),
    fst (run_scripts (Some st) rng evs) <> None.
Proof.
  unfold run_scripts.
  induction evs as [|ev evs IH]; intros st rng; cbn [script_runs fst];
    [discriminate|].
  destruct (script _ _ _ _ (Some st) rng ev) as [[st' rng'] o].
  apply IH.
Qed.

(** X12. What a browser session can reach.  Starting from an empty session
    state, whatever the user does and in whatever order, the script never
    processes a second quarter: the period is never above 2, the history
    never holds more than one record, the game is never over, and no run of
    the script ever ends at the game-over screen. *)
Theorem X12_never_past_first_quarter :
  forall (evs : list event) (rng : RandomState),
    let '(session_state, rng') := run_scripts None rng evs in
    match session_state with
    | None => evs = []
    | Some st =>
        1 <= period st <= 2 /\ (List.length (history st) <= 1)%nat
        /\ game_over st = false
    end /\
    forall ev : event, stopped (snd (run_script session_state rng' ev)) = false.
Proof.
  intros evs rng.
  pose proof (script_runs_keep_first_quarter evs None rng
                (or_introl eq_refl)) as Hss.
  assert (Hsome : fst (run_scripts None rng evs) = None -> evs = []).
  { destruct evs as [|ev evs]; [reflexivity|].
    unfold run_scripts. cbn [script_runs].
    destruct (script _ _ _ _ None rng ev) as [[st rng'] o].
    intros Hnone. exfalso. exact (script_runs_some evs st rng' Hnone). }
  destruct (run_scripts None rng evs) as [session_state rng'].
  cbn [fst] in Hss, Hsome.
  split.
  - destruct Hss as [->|[->|(scenario & delivery & inventory & incentive & Hs & ->)]].
    + apply Hsome. reflexivity.
    + cbn. repeat split; try lia; discriminate.
    + destruct (first_quarter_open delivery inventory incentive scenario Hs)
        as (Hperiod & Hopen & Hlen & _).
      rewrite Hperiod, Hlen, Hopen. repeat split; lia.
  - intros ev. apply (script_keeps_first_quarter session_state rng' ev Hss).
Qed.

(** X13. Once the game is over, a run of the script changes nothing unless
    the user restarts: the session state and the generator are left as they
    were, whether the run ends at the game-over screen or in the sidebar. *)
Theorem X13_game_over_is_kept :
  forall (st : SessionState) (rng : RandomState) (ev : event),
    game_over st = true ->
    ev <> RestartSimulation ->
    fst (run_script (Some st) rng ev) = (st, rng).
Proof.
  intros st rng ev Hover Hev.
  unfold run_script, script. cbn [init_game].
  destruct (share_delta st); [reflexivity|].
  unfold play. rewrite Hover.
  destruct ev; try reflexivity. congruence.
Qed.

(** X14. Restart.  While no quarter is recorded, the restart button puts the
    session back to the opening state, with every field at its starting
    value, and asks for a rerun; the generator is not touched. *)
Theorem X14_restart_resets :
  forall (session_state : option SessionState) (rng : RandomState),
    match session_state with
    | Some st => history st = []
    | None => True
    end ->
    run_script session_state rng RestartSimulation
    = ({| period := 1;
          cash := 500%float;
          market_share := 59.0%float;
          birla_share := 5.0%float;
          history := [];
          game_over := false;
          last_feedback := welcome_feedback |},
       rng, Rerun).
Proof.
  intros session_state rng Hhist.
  unfold run_script, script, share_delta.
  destruct session_state as [st|]; cbn [init_game]; [rewrite Hhist|];
    reflexivity.
Qed.

End Browser.

(** * Two ways to play *)

Section Strategy.

Variable round : float -> Z -> float.

(** The delivery and inventory chosen in every quarter, the options the
    figures are enumerated over, and the number of quarters after which
    the game is over. *)
Variable delivery : DeliveryFrequency.
Variable inventory : InventoryPolicy.
Variable options : list (string * string).
Variable quarters_played : nat.

Let outcomes := strategy_outcomes (delivery_option delivery)
                  (inventory_option inventory) options.

Hypothesis options_cover :
  forall (st : SessionState) (incentive : DealerIncentive) (scenario : string),
    In scenario scenarios ->
    exists incentive' scenario',
      In (incentive', scenario') options /\
      calculate_results st (delivery_option delivery)
        (inventory_option inventory) (incentive_option incentive) scenario
      = calculate_results st (delivery_option delivery)
          (inventory_option inventory) incentive' scenario'.

Hypothesis open_before :
  forall n : nat,
    (n < quarters_played)%nat ->
    forallb (fun state => negb (over_at n state)) (outcomes n) = true.

Hypothesis over_then :
  forallb (over_at quarters_played) (outcomes quarters_played) = true.

(** A turn of the strategy: the fixed delivery and inventory, any
    commissions, any of the three scenarios. *)
Definition follows
    (turn : string * DeliveryFrequency * InventoryPolicy * DealerIncentive) : Prop :=
  let '(scenario, d, i, _) := turn in
  In scenario scenarios /\ d = delivery /\ i = inventory.

(** Where the strategy stands after [n] quarters. *)
Definition at_level (n : nat) (st : SessionState) : Prop :=
  period st = Z.of_nat n + 1 /\
  In (figures st) (outcomes n) /\
  game_over st = over_at n (figures st) /\
  List.length (history st) = n.

Lemma strategy_turn (n : nat) (st : SessionState) (scenario : string)
    (incentive : DealerIncentive) :
  at_level n st ->
  game_over st = false ->
  In scenario scenarios ->
  at_level (S n)
    (submitted round st scenario (delivery_option delivery)
       (inventory_option inventory) (incentive_option incentive)).
Proof.
  intros (Hperiod & Hin & _ & Hlen) Hopen Hs.
  destruct (options_cover st incentive scenario Hs)
    as (incentive' & scenario' & Hopt & Hcalc).
  unfold at_level, submitted.
  rewrite Hcalc.
  pose proof (calculate_results_share st (delivery_option delivery)
                (inventory_option inventory) incentive' scenario') as Hres.
  destruct (calculate_results st _ _ incentive' scenario')
    as [[[[net_profit share_change] feedback] opex] revenue].
  cbn [period figures cash market_share birla_share game_over history].
  split; [lia|]. split; [|split].
  - unfold outcomes. cbn [strategy_outcomes]. apply in_flat_map.
    exists (figures st). split; [exact Hin|].
    unfold strategy_step, figures. apply in_map_iff.
    exists (incentive', scenario'). split; [|exact Hopt].
    cbn [market_share session_with_share] in Hres |- *.
    rewrite <- Hres. reflexivity.
  - unfold over_at, figures. cbn [cash market_share birla_share].
    rewrite Hopen, ?Hperiod.
    replace (Z.of_nat (S n) + 1) with (Z.of_nat n + 1 + 1) by lia.
    match goal with |- (if ?b then _ else _) = _ => destruct b end;
      reflexivity.
  - rewrite length_app, Hlen. cbn [List.length]. lia.
Qed.

Lemma strategy_run (turns : list (string * DeliveryFrequency * InventoryPolicy
                                  * DealerIncentive)) :
  forall (n : nat) (st : SessionState),
    at_level n st ->
    (n <= quarters_played)%nat ->
    (quarters_played - n <= List.length turns)%nat ->
    Forall follows turns ->
    at_level quarters_played (quarters round st turns)
    /\ game_over (quarters round st turns) = true.
Proof.
  induction turns as [|[[[scenario d] i] c] turns IH];
    intros n st Hlevel Hn Hlen Hfollow.
  - cbn [List.length] in Hlen.
    assert (n = quarters_played) as -> by lia.
    cbn [quarters]. split; [exact Hlevel|].
    destruct Hlevel as (_ & Hin & Hover & _). rewrite Hover.
    pose proof over_then as Hall. rewrite forallb_forall in Hall.
    apply Hall. exact Hin.
  - destruct (Nat.eq_dec n quarters_played) as [->|Hlt].
    + assert (Hend : game_over st = true).
      { destruct Hlevel as (_ & Hin & Hover & _). rewrite Hover.
        pose proof over_then as Hall. rewrite forallb_forall in Hall.
        apply Hall. exact Hin. }
      cbn [quarters]. rewrite Hend. split; [exact Hlevel | exact Hend].
    + assert (Hopen : game_over st = false).
      { destruct Hlevel as (_ & Hin & Hover & _). rewrite Hover.
        pose proof (open_before n ltac:(lia)) as Hall.
        rewrite forallb_forall in Hall.
        apply negb_true_iff. apply Hall. exact Hin. }
      cbn [quarters]. rewrite Hopen.
      inversion Hfollow as [|turn turns' Hturn Hrest]; subst.
      unfold follows in Hturn. destruct Hturn as (Hs & -> & ->).
      apply (IH (S n)).
      * apply strategy_turn; assumption.
      * lia.
      * cbn [List.length] in Hlen. lia.
      * exact Hrest.
Qed.

Lemma strategy_start : at_level 0 (init_game None).
Proof.
  unfold at_level. repeat split.
  left. reflexivity.
Qed.

End Strategy.

Lemma strategy_check_spec (delivery inventory : string)
    (options : list (string * string)) (n : nat)
    (final : float * float * float -> bool) :
  strategy_check delivery inventory options n final = true ->
  (forall k : nat,
      (k < n)%nat ->
      forallb (fun state => negb (over_at k state))
              (strategy_outcomes delivery inventory options k) = true) /\
  forallb (over_at n) (strategy_outcomes delivery inventory options n) = true /\
  (forall state,
      In state (strategy_outcomes delivery inventory options n) ->
      final state = true).
Proof.
  unfold strategy_check. intros Hcheck.
  apply andb_true_iff in Hcheck as [Hopen Hlast].
  rewrite forallb_forall in Hopen. rewrite forallb_forall in Hlast.
  split; [|split].
  - intros k Hk. apply Hopen. apply in_seq. lia.
  - apply forallb_forall. intros state Hin.
    specialize (Hlast _ Hin). apply andb_true_iff in Hlast. tauto.
  - intros state Hin.
    specialize (Hlast _ Hin). apply andb_true_iff in Hlast. tauto.
Qed.

Lemma responsive_options_cover (st : SessionState) (incentive : DealerIncentive)
    (scenario : string) :
  In scenario scenarios ->
  exists incentive' scenario',
    In (incentive', scenario') responsive_options /\
    calculate_results st (delivery_option Responsive)
      (inventory_option HighBuffer) (incentive_option incentive) scenario
    = calculate_results st (delivery_option Responsive)
        (inventory_option HighBuffer) incentive' scenario'.
Proof.
  intros Hs. unfold scenarios in Hs. cbn [In] in Hs.
  destruct Hs as [<-|[<-|[<-|[]]]].
  - exists (incentive_option incentive), "Stable".
    split; [destruct incentive; simpl; tauto | reflexivity].
  - exists (incentive_option incentive), "Stable".
    split; [destruct incentive; simpl; tauto | reflexivity].
  - exists (incentive_option incentive), "Festival Season".
    split; [destruct incentive; simpl; tauto | reflexivity].
Qed.

Lemma all_options_cover (delivery inventory : string) (st : SessionState)
    (incentive : DealerIncentive) (scenario : string) :
  In scenario scenarios ->
  exists incentive' scenario',
    In (incentive', scenario') all_options /\
    calculate_results st delivery inventory (incentive_option incentive) scenario
    = calculate_results st delivery inventory incentive' scenario'.
Proof.
  intros Hs. exists (incentive_option incentive), scenario.
  split; [|reflexivity].
  unfold all_options. apply in_prod; [|exact Hs].
  destruct incentive; simpl; tauto.
Qed.

Lemma responsive_check :
  strategy_check (delivery_option Responsive) (inventory_option HighBuffer)
    responsive_options 8 responsive_final = true.
Proof. vm_compute. reflexivity. Qed.

Lemma efficient_check :
  strategy_check (delivery_option Efficient) (inventory_option Lean)
    all_options 4 efficient_final = true.
Proof. vm_compute. reflexivity. Qed.






Lemma script_raises_once_history_witness :
  Demo.script (Some Demo.st1) 0 RestartSimulation
  = (Demo.st1, 0, Raised (Py.KeyError "market_share_end")).
Proof.
  apply (script_raises_once_history Demo.RandomState Demo.np_random_seed
           Demo.np_random_random Demo.round Demo.st1 0 RestartSimulation
           Demo_st1_reachable).
  discriminate.
Defined.

Lemma X13_game_over_is_kept_witness :
  fst (Demo.script (Some Demo.st_over) 0 NoEvent) = (Demo.st_over, 0).
Proof.
  apply (X13_game_over_is_kept Demo.RandomState Demo.np_random_seed
           Demo.np_random_random Demo.round Demo.st_over 0 NoEvent).
  - reflexivity.
  - discriminate.
Defined.

Lemma X14_restart_resets_witness :
  Demo.script (Some Demo.st0) 7 RestartSimulation = (Demo.st0, 7, Rerun).
Proof.
  exact (X14_restart_resets Demo.RandomState Demo.np_random_seed
           Demo.np_random_random Demo.round (Some Demo.st0) 7 eq_refl).
Defined.
